(** * Workout.py: workout records, calorie dispatch, equality and aggregates

    A shallow embedding of [src/Workout.py].

    - Python numbers (calories, elevation, pace, coordinates, distances,
      seconds) are exact rationals [Q]; Python's [==] on numbers is
      [Qeq_bool].  Rounding of binary floating point is outside the model.
    - A [datetime] is a count of microseconds since 0001-01-01 00:00:00 and a
      [timedelta] a signed count of microseconds, which is the resolution of
      both Python types; subtraction and comparison are those of [Z].
    - A raised exception is the [Raise] case of [result]; a method that
      mutates [self] is a function from the object to an outcome and the
      object afterwards.
    - [dateutil.parser.parse], [lec20_helpers.gpsDistance], [str] of a
      [timedelta] and the formatting of a rounded number are collaborators
      outside the file: they are variables of a section. *)

From Stdlib Require Import ZArith QArith Qabs Qround List String Ascii Bool Lia.
From Stdlib Require Import DecimalString Permutation.
Import ListNotations.

Local Open Scope Z_scope.

(** ** Exceptions *)

Inductive exn : Type :=
| ParserError      (* dateutil.parser.parse on an unparseable string *)
| IndexError       (* list index out of range *)
| AttributeError.  (* attribute or method absent from the object's class *)

Inductive result (A : Type) : Type :=
| Ok (a : A)
| Raise (e : exn).

Arguments Ok {A} a.
Arguments Raise {A} e.

Definition bind {A B : Type} (r : result A) (k : A -> result B) : result B :=
  match r with
  | Ok a => k a
  | Raise e => Raise e
  end.

Notation "x <- c ;; k" := (bind c (fun x => k))
  (at level 61, c at next level, right associativity).

(** Agreement of two outcomes that carry a number: the same exception, or
    two numbers that are equal as rationals. *)
Definition result_Qeq (r1 r2 : result Q) : Prop :=
  match r1, r2 with
  | Ok a, Ok b => Qeq a b
  | Raise e1, Raise e2 => e1 = e2
  | _, _ => False
  end.

(** ** datetime and timedelta *)

Module Datetime.

Definition datetime : Type := Z.
Definition timedelta : Type := Z.

(** [a - b] on two datetimes. *)
Definition sub (a b : datetime) : timedelta := a - b.

(** [a == b] on two datetimes. *)
Definition eqb (a b : datetime) : bool := Z.eqb a b.

(** [timedelta.total_seconds()]: the microsecond count over [10**6]. *)
Definition total_seconds (d : timedelta) : Q :=
  (inject_Z d / inject_Z 1000000)%Q.

(** The proleptic Gregorian calendar, as [datetime] counts days. *)
Definition is_leap (y : Z) : bool :=
  (y mod 4 =? 0) && (negb (y mod 100 =? 0) || (y mod 400 =? 0)).

Definition days_before_year (year : Z) : Z :=
  let y := year - 1 in
  y * 365 + y / 4 - y / 100 + y / 400.

Definition days_in_month (y m : Z) : Z :=
  if m =? 2 then (if is_leap y then 29 else 28)
  else if (m =? 4) || (m =? 6) || (m =? 9) || (m =? 11) then 30
  else 31.

Fixpoint days_before_month_aux (y : Z) (n : nat) : Z :=
  match n with
  | O => 0
  | S k => days_before_month_aux y k + days_in_month y (Z.of_nat (S k))
  end.

(** Days of the year before the first day of month [m]. *)
Definition days_before_month (y m : Z) : Z :=
  days_before_month_aux y (Z.to_nat (m - 1)).

(** Day number of a date, 0001-01-01 being day 1. *)
Definition ymd2ord (y m d : Z) : Z :=
  days_before_year y + days_before_month y m + d.

(** [datetime(y, m, d, hh, mm, ss)]. *)
Definition make (y m d hh mm ss : Z) : datetime :=
  ((ymd2ord y m d * 86400) + hh * 3600 + mm * 60 + ss) * 1000000.

End Datetime.

Import Datetime.

(** ** Strings *)

(** A Python [str] is held as its UTF-8 bytes; [len] counts code points,
    that is the bytes that are not continuation bytes. *)
Fixpoint py_len (s : string) : Z :=
  match s with
  | EmptyString => 0
  | String c r =>
      (if (128 <=? Z.of_N (N_of_ascii c)) && (Z.of_N (N_of_ascii c) <? 192)
       then 0 else 1) + py_len r
  end.

Fixpoint repeat_nat (s : string) (n : nat) : string :=
  match n with
  | O => EmptyString
  | S k => (s ++ repeat_nat s k)%string
  end.

(** [s * n]: the empty string when [n] is not positive. *)
Definition py_repeat (s : string) (n : Z) : string := repeat_nat s (Z.to_nat n).

Definition newline : string := String (ascii_of_nat 10) EmptyString.

(** ** Lists *)

(** [l[0]]. *)
Definition getitem0 {A : Type} (l : list A) : result A :=
  match l with
  | [] => Raise IndexError
  | x :: _ => Ok x
  end.

(** [l[1:]]. *)
Definition slice_from1 {A : Type} (l : list A) : list A := tl l.

(** ** The objects *)

Definition point : Type := (Q * Q)%type.

(** The attributes [Workout.__init__] assigns. *)
Record base : Type := mkBase {
  start : datetime;
  end_ : datetime;
  icon : string;
  kind : string;
  calories : option Q
}.

(** An object of one of the three classes, with its instance attributes. *)
Inductive workout : Type :=
| Workout (b : base)
| RunWorkout (b : base) (elev : Q) (route_gps_points : option (list point))
| SwimWorkout (b : base) (pace : Q).

Definition base_of (w : workout) : base :=
  match w with
  | Workout b => b
  | RunWorkout b _ _ => b
  | SwimWorkout b _ => b
  end.

Definition with_base (w : workout) (b : base) : workout :=
  match w with
  | Workout _ => Workout b
  | RunWorkout _ e r => RunWorkout b e r
  | SwimWorkout _ p => SwimWorkout b p
  end.

(** [self.route_gps_points], [None] for the classes without the attribute
    (used to state properties, never by the methods). *)
Definition route_of (w : workout) : option (list point) :=
  match w with
  | RunWorkout _ _ r => r
  | _ => None
  end.

(** [type(a) == type(b)]. *)
Definition same_type (a b : workout) : bool :=
  match a, b with
  | Workout _, Workout _ => true
  | RunWorkout _ _ _, RunWorkout _ _ _ => true
  | SwimWorkout _ _, SwimWorkout _ _ => true
  | _, _ => false
  end.

(** Class attributes. *)
Definition Workout_cal_per_hr : Q := 200%Q.
Definition RunWorkout_cals_per_km : Q := 100%Q.
Definition SwimWorkout_cal_per_hr : Q := 400%Q.

Definition Workout_icon : string := "😓"%string.
Definition RunWorkout_icon : string := "🏃🏽‍"%string.
Definition SwimWorkout_icon : string := "🏊‍"%string.


(** ** The methods *)

Section Methods.

(** [dateutil.parser.parse]. *)
Variable parse : string -> result datetime.
(** [lec20_helpers.gpsDistance]. *)
Variable gpsDistance : point -> point -> Q.
(** [str] of a [timedelta], and the text of [round(x, 1)] in an f-string. *)
Variable str_timedelta : timedelta -> string.
Variable str_round1 : Q -> string.

(** *** Constructors *)

Definition Workout_init_base (start_s end_s : string) (cal : option Q)
  : result base :=
  s <- parse start_s ;;
  e <- parse end_s ;;
  Ok (mkBase s e Workout_icon "Workout" cal).

Definition Workout_init (start_s end_s : string) (cal : option Q)
  : result workout :=
  b <- Workout_init_base start_s end_s cal ;;
  Ok (Workout b).

Definition RunWorkout_init (start_s end_s : string) (elev : Q)
    (cal : option Q) (route_gps_points : option (list point))
  : result workout :=
  b <- Workout_init_base start_s end_s cal ;;
  Ok (RunWorkout
        (mkBase (start b) (end_ b) RunWorkout_icon "Running" (calories b))
        elev route_gps_points).

Definition SwimWorkout_init (start_s end_s : string) (pace : Q)
    (cal : option Q)
  : result workout :=
  b <- Workout_init_base start_s end_s cal ;;
  Ok (SwimWorkout
        (mkBase (start b) (end_ b) SwimWorkout_icon "Swimming" (calories b))
        pace).

(** *** get_calories *)

(** [Workout.get_calories]. *)
Definition Workout_get_calories (b : base) : Q :=
  match calories b with
  | None =>
      (Workout_cal_per_hr * total_seconds (sub (end_ b) (start b)) / 3600)%Q
  | Some c => c
  end.

(** The body of the loop of [RunWorkout.get_calories], on the pair
    [(dist, lastP)]. *)
Definition route_step (st : Q * point) (p : point) : Q * point :=
  ((fst st + gpsDistance (snd st) p)%Q, p).

Definition route_loop (ps : list point) (st : Q * point) : Q * point :=
  fold_left route_step ps st.

(** [RunWorkout.get_calories]. *)
Definition RunWorkout_get_calories (b : base)
    (route_gps_points : option (list point)) : result Q :=
  match route_gps_points with
  | Some pts =>
      lastP <- getitem0 pts ;;
      let dist := fst (route_loop (slice_from1 pts) (0%Q, lastP)) in
      Ok (dist * RunWorkout_cals_per_km)%Q
  | None => Ok (Workout_get_calories b)
  end.

(** [SwimWorkout.get_calories]. *)
Definition SwimWorkout_get_calories (b : base) : Q :=
  match calories b with
  | None =>
      (SwimWorkout_cal_per_hr * total_seconds (sub (end_ b) (start b)) / 3600)%Q
  | Some c => c
  end.

(** [w.get_calories()], dispatched on the class of [w]. *)
Definition get_calories (w : workout) : result Q :=
  match w with
  | Workout b => Ok (Workout_get_calories b)
  | RunWorkout b _ r => RunWorkout_get_calories b r
  | SwimWorkout b _ => Ok (SwimWorkout_get_calories b)
  end.

(** *** Equality *)

(** [a and b] where [b] is evaluated only when [a] is true. *)
Definition and_then (a : bool) (k : result bool) : result bool :=
  if a then k else Ok false.

(** [Workout.__eq__]. *)
Definition Workout_eq (self other : workout) : result bool :=
  and_then (same_type self other)
 (and_then (eqb (start (base_of self)) (start (base_of other)))
 (and_then (eqb (end_ (base_of self)) (end_ (base_of other)))
 (and_then (String.eqb (kind (base_of self)) (kind (base_of other)))
    (c1 <- get_calories self ;;
     c2 <- get_calories other ;;
     Ok (Qeq_bool c1 c2))))).

(** [w.elev]. *)
Definition attr_elev (w : workout) : result Q :=
  match w with
  | RunWorkout _ e _ => Ok e
  | _ => Raise AttributeError
  end.

(** [RunWorkout.__eq__]. *)
Definition RunWorkout_eq (self other : workout) : result bool :=
  r <- Workout_eq self other ;;
  if r then
    e1 <- attr_elev self ;;
    e2 <- attr_elev other ;;
    Ok (Qeq_bool e1 e2)
  else Ok false.

(** The [__eq__] of the class of [w]. *)
Definition method_eq (w : workout) : workout -> workout -> result bool :=
  match w with
  | RunWorkout _ _ _ => RunWorkout_eq
  | _ => Workout_eq
  end.

(** [a == b]: when the class of [b] is a proper subclass of the class of
    [a] that overrides [__eq__], the method of [b] is tried first; no
    [__eq__] here returns [NotImplemented], so the first call decides. *)
Definition workout_eq (a b : workout) : result bool :=
  match a, b with
  | Workout _, RunWorkout _ _ _ => RunWorkout_eq b a
  | _, _ => method_eq a a b
  end.

(** *** Getters and setters

    A method call takes the object and gives the outcome of the call and
    the object after it. *)

Definition get_duration (w : workout) : timedelta :=
  sub (end_ (base_of w)) (start (base_of w)).

Definition get_start (w : workout) : datetime := start (base_of w).

Definition get_end (w : workout) : datetime := end_ (base_of w).

Definition get_kind (w : workout) : string := kind (base_of w).

Definition set_calories (cal : option Q) (w : workout)
  : result unit * workout :=
  let b := base_of w in
  (Ok tt, with_base w (mkBase (start b) (end_ b) (icon b) (kind b) cal)).

Definition set_start (start_s : string) (w : workout)
  : result unit * workout :=
  let b := base_of w in
  match parse start_s with
  | Raise e => (Raise e, w)
  | Ok t =>
      (Ok tt, with_base w (mkBase t (end_ b) (icon b) (kind b) (calories b)))
  end.

Definition set_end (end_s : string) (w : workout)
  : result unit * workout :=
  let b := base_of w in
  match parse end_s with
  | Raise e => (Raise e, w)
  | Ok t =>
      (Ok tt, with_base w (mkBase (start b) t (icon b) (kind b) (calories b)))
  end.

(** [RunWorkout.get_elev] and [RunWorkout.set_elev]; the other classes
    have no such method. *)
Definition get_elev (w : workout) : result Q :=
  match w with
  | RunWorkout _ e _ => Ok e
  | _ => Raise AttributeError
  end.

Definition set_elev (e : Q) (w : workout) : result unit * workout :=
  match w with
  | RunWorkout b _ r => (Ok tt, RunWorkout b e r)
  | _ => (Raise AttributeError, w)
  end.

(** [SwimWorkout.get_pace]. *)
Definition get_pace (w : workout) : result Q :=
  match w with
  | SwimWorkout _ p => Ok p
  | _ => Raise AttributeError
  end.

(** *** Rendering *)

Definition width : Z := 16.

(** [Workout.__str__], inherited by both subclasses. *)
Definition Workout_str (w : workout) : result string :=
  let b := base_of w in
  let retstr := ("|" ++ py_repeat "–" width ++ "|" ++ newline)%string in
  let retstr := (retstr ++ "|" ++ py_repeat " " width ++ "|" ++ newline)%string in
  let retstr :=
    (retstr ++ "| " ++ icon b ++ py_repeat " " (width - 3) ++ "|" ++ newline)%string in
  let retstr :=
    (retstr ++ "| " ++ kind b
       ++ py_repeat " " (width - py_len (kind b) - 1) ++ "|" ++ newline)%string in
  let retstr := (retstr ++ "|" ++ py_repeat " " width ++ "|" ++ newline)%string in
  let duration_str := str_timedelta (get_duration w) in
  let retstr :=
    (retstr ++ "| " ++ duration_str
       ++ py_repeat " " (width - py_len duration_str - 1) ++ "|" ++ newline)%string in
  c <- get_calories w ;;
  let cal_str := str_round1 c in
  let retstr :=
    (retstr ++ "| " ++ cal_str ++ " Calories "
       ++ py_repeat " " (width - py_len cal_str - 11) ++ "|" ++ newline)%string in
  let retstr := (retstr ++ "|" ++ py_repeat " " width ++ "|" ++ newline)%string in
  let retstr := (retstr ++ "|" ++ py_repeat "_" width ++ "|" ++ newline)%string in
  Ok retstr.

(** *** The public operations on an object *)

Inductive value : Type :=
| VNone
| VNum (q : Q)
| VDatetime (t : datetime)
| VTimedelta (d : timedelta)
| VStr (s : string)
| VBool (b : bool).

Inductive call : Type :=
| Call_get_calories
| Call_get_duration
| Call_get_start
| Call_get_end
| Call_get_kind
| Call_get_elev
| Call_get_pace
| Call_set_calories (cal : option Q)
| Call_set_start (start_s : string)
| Call_set_end (end_s : string)
| Call_set_elev (e : Q)
| Call_eq (other : workout)
| Call_str.

Definition returning {A : Type} (f : A -> value) (r : result A) (w : workout)
  : result value * workout :=
  (x <- r ;; Ok (f x), w).

Definition mutating (r : result unit * workout) : result value * workout :=
  (_ <- fst r ;; Ok VNone, snd r).

Definition run (c : call) (w : workout) : result value * workout :=
  match c with
  | Call_get_calories => returning VNum (get_calories w) w
  | Call_get_duration => returning VTimedelta (Ok (get_duration w)) w
  | Call_get_start => returning VDatetime (Ok (get_start w)) w
  | Call_get_end => returning VDatetime (Ok (get_end w)) w
  | Call_get_kind => returning VStr (Ok (get_kind w)) w
  | Call_get_elev => returning VNum (get_elev w) w
  | Call_get_pace => returning VNum (get_pace w) w
  | Call_set_calories cal => mutating (set_calories cal w)
  | Call_set_start s => mutating (set_start s w)
  | Call_set_end s => mutating (set_end s w)
  | Call_set_elev e => mutating (set_elev e w)
  | Call_eq other => returning VBool (workout_eq w other) w
  | Call_str => returning VStr (Workout_str w) w
  end.

(** The object after a sequence of calls, whatever each call returned or
    raised (a caller may catch the exception and go on). *)
Definition run_all (cs : list call) (w : workout) : workout :=
  fold_left (fun w c => snd (run c w)) cs w.

(** *** Aggregates *)

(** [total_calories]. *)
Fixpoint total_calories_from (cals : Q) (workouts : list workout) : result Q :=
  match workouts with
  | [] => Ok cals
  | w :: rest =>
      c <- get_calories w ;;
      total_calories_from (cals + c)%Q rest
  end.

Definition total_calories (workouts : list workout) : result Q :=
  total_calories_from 0%Q workouts.

(** [total_elevation]. *)
Fixpoint total_elevation_from (elev : Q) (run_workouts : list workout)
  : result Q :=
  match run_workouts with
  | [] => Ok elev
  | w :: rest =>
      e <- get_elev w ;;
      total_elevation_from (elev + e)%Q rest
  end.

Definition total_elevation (run_workouts : list workout) : result Q :=
  total_elevation_from 0%Q run_workouts.

(** [total_elapsed_time]. *)
Fixpoint total_elapsed_time_from (total : Q)
    (time_tuples : list (string * string)) : result Q :=
  match time_tuples with
  | [] => Ok total
  | (start_s, end_s) :: rest =>
      start_time <- parse start_s ;;
      end_time <- parse end_s ;;
      total_elapsed_time_from
        (total + total_seconds (sub end_time start_time))%Q rest
  end.

Definition total_elapsed_time (time_tuples : list (string * string))
  : result Q :=
  total_elapsed_time_from 0%Q time_tuples.

End Methods.

(** ** Reference collaborators

    Concrete functions that stand for the collaborators in closed examples. *)

Module Sample.

Definition digit_of (c : ascii) : option Z :=
  let n := Z.of_N (N_of_ascii c) in
  if (48 <=? n) && (n <=? 57) then Some (n - 48) else None.

Fixpoint number_from (acc : Z) (s : string) : option Z :=
  match s with
  | EmptyString => Some acc
  | String c r =>
      match digit_of c with
      | Some d => number_from (acc * 10 + d) r
      | None => None
      end
  end.

Definition number (s : string) : option Z :=
  match s with
  | EmptyString => None
  | _ => number_from 0 s
  end.

Fixpoint split (sep : ascii) (s : string) : list string :=
  match s with
  | EmptyString => [EmptyString]
  | String c r =>
      if Ascii.eqb c sep then EmptyString :: split sep r
      else match split sep r with
           | [] => [String c EmptyString]
           | h :: t => String c h :: t
           end
  end.

(** Hour of the day from a 12-hour clock reading. *)
Definition hour24 (hh : Z) (ampm : string) : option Z :=
  if (1 <=? hh) && (hh <=? 12) then
    if String.eqb ampm "AM" then Some (hh mod 12)
    else if String.eqb ampm "PM" then Some (hh mod 12 + 12)
    else None
  else None.

Definition of_option {A : Type} (o : option A) : result A :=
  match o with
  | Some a => Ok a
  | None => Raise ParserError
  end.

(** A parser of the one format the examples of the file use,
    [month/day/year hour:minute AM|PM]; anything else is unparseable. *)
Definition parse (s : string) : result datetime :=
  match split " " s with
  | [date; time; ampm] =>
      match split "/" date, split ":" time with
      | [mo; d; y], [hh; mi] =>
          mo <- of_option (number mo) ;;
          d <- of_option (number d) ;;
          y <- of_option (number y) ;;
          hh <- of_option (number hh) ;;
          mi <- of_option (number mi) ;;
          h <- of_option (hour24 hh ampm) ;;
          if (1 <=? y) && (y <=? 9999) && (1 <=? mo) && (mo <=? 12)
             && (1 <=? d) && (d <=? days_in_month y mo) && (mi <=? 59)
          then Ok (make y mo d h mi 0)
          else Raise ParserError
      | _, _ => Raise ParserError
      end
  | _ => Raise ParserError
  end.

(** A distance in kilometres between two (latitude, longitude) pairs: the
    sum of the two coordinate differences at 111 km to the degree. *)
Definition gpsDistance (a b : point) : Q :=
  ((Qabs (fst a - fst b) + Qabs (snd a - snd b)) * 111)%Q.

Definition two (n : Z) : string :=
  ((if (n <? 10)%Z then "0" else "") ++ NilZero.string_of_uint (N.to_uint (Z.to_N n)))%string.

(** [str] of a [timedelta] of whole seconds, [0 <= d < 1 day]. *)
Definition str_timedelta (d : timedelta) : string :=
  let secs := d / 1000000 in
  (NilZero.string_of_uint (N.to_uint (Z.to_N (secs / 3600)%Z)) ++ ":"
     ++ two (secs / 60 mod 60)%Z ++ ":" ++ two (secs mod 60)%Z)%string.

(** A non-negative number to one decimal place. *)
Definition str_round1 (q : Q) : string :=
  let tenths := Qfloor (q * 10 + (1 # 2))%Q in
  (NilZero.string_of_uint (N.to_uint (Z.to_N (tenths / 10)%Z)) ++ "."
     ++ NilZero.string_of_uint (N.to_uint (Z.to_N (tenths mod 10)%Z)))%string.

End Sample.

(** ** The words of the specification

    Definitions that follow the specification's sentences, to be compared
    with the methods above. *)

Section SpecWords.

Variable parse : string -> result datetime.
Variable gpsDistance : point -> point -> Q.

(** "(end - start) expressed in hours as a real number". *)
Definition duration_hours (b : base) : Q :=
  (total_seconds (sub (end_ b) (start b)) / 3600)%Q.

(** "summing GeoDistance(point[i], point[i+1]) over consecutive pairs
    starting from index 0 (if fewer than 2 points, total distance is 0)". *)
Fixpoint consecutive_distance (ps : list point) : Q :=
  match ps with
  | [] => 0%Q
  | p :: rest =>
      match rest with
      | [] => 0%Q
      | q :: _ => (gpsDistance p q + consecutive_distance rest)%Q
      end
  end.

(** "sum of getCalories() over each element". *)
Fixpoint sum_calories (ws : list workout) : result Q :=
  match ws with
  | [] => Ok 0%Q
  | w :: rest =>
      c <- get_calories gpsDistance w ;;
      s <- sum_calories rest ;;
      Ok (c + s)%Q
  end.

(** "for each pair, parse both strings and sum (end - start) expressed in
    seconds". *)
Fixpoint sum_elapsed (pairs : list (string * string)) : result Q :=
  match pairs with
  | [] => Ok 0%Q
  | (start_s, end_s) :: rest =>
      s <- parse start_s ;;
      e <- parse end_s ;;
      t <- sum_elapsed rest ;;
      Ok (total_seconds (sub e s) + t)%Q
  end.

(** The constants of each variant. *)
Definition variant_kind (w : workout) : string :=
  match w with
  | Workout _ => "Workout"
  | RunWorkout _ _ _ => "Running"
  | SwimWorkout _ _ => "Swimming"
  end.

Definition variant_icon (w : workout) : string :=
  match w with
  | Workout _ => Workout_icon
  | RunWorkout _ _ _ => RunWorkout_icon
  | SwimWorkout _ _ => SwimWorkout_icon
  end.

Definition has_variant_constants (w : workout) : Prop :=
  kind (base_of w) = variant_kind w /\ icon (base_of w) = variant_icon w.

(** [w] is what one of the three constructors returned. *)
Definition constructed (w : workout) : Prop :=
  (exists s e c, Workout_init parse s e c = Ok w)
  \/ (exists s e el c r, RunWorkout_init parse s e el c r = Ok w)
  \/ (exists s e p c, SwimWorkout_init parse s e p c = Ok w).

(** Two objects that differ at most in the attributes of [base]. *)
Definition same_outside_base (w w' : workout) : Prop :=
  with_base w' (base_of w) = w.

(** The derived calories of two records are numbers, and equal ones. *)
Definition equal_derived_calories (a b : workout) : Prop :=
  exists c1 c2,
    get_calories gpsDistance a = Ok c1
    /\ get_calories gpsDistance b = Ok c2
    /\ Qeq c1 c2.

(** Equal [elev] when both records are running workouts. *)
Definition equal_elev (a b : workout) : Prop :=
  match a, b with
  | RunWorkout _ e1 _, RunWorkout _ e2 _ => Qeq e1 e2
  | _, _ => True
  end.

(** [w'] is [w] with [start] set to [t] and nothing else changed. *)
Definition only_start_changed (w w' : workout) (t : datetime) : Prop :=
  start (base_of w') = t
  /\ end_ (base_of w') = end_ (base_of w)
  /\ icon (base_of w') = icon (base_of w)
  /\ kind (base_of w') = kind (base_of w)
  /\ calories (base_of w') = calories (base_of w)
  /\ same_outside_base w w'.

(** [w'] is [w] with [end] set to [t] and nothing else changed. *)
Definition only_end_changed (w w' : workout) (t : datetime) : Prop :=
  start (base_of w') = start (base_of w)
  /\ end_ (base_of w') = t
  /\ icon (base_of w') = icon (base_of w)
  /\ kind (base_of w') = kind (base_of w)
  /\ calories (base_of w') = calories (base_of w)
  /\ same_outside_base w w'.

(** [w'] is [w] with [calories] set to [cal] and nothing else changed. *)
Definition only_calories_changed (w w' : workout) (cal : option Q) : Prop :=
  start (base_of w') = start (base_of w)
  /\ end_ (base_of w') = end_ (base_of w)
  /\ icon (base_of w') = icon (base_of w)
  /\ kind (base_of w') = kind (base_of w)
  /\ calories (base_of w') = cal
  /\ same_outside_base w w'.

End SpecWords.

(** ** Concrete records for the closed examples *)

Definition boston : point := (423601 # 10000, - (710589 # 10000))%Q.
Definition newton : point := (423370 # 10000, - (712092 # 10000))%Q.

Definition t_1535 : datetime := make 2021 1 1 15 35 0.
Definition t_1600 : datetime := make 2021 1 1 16 0 0.

(** [Workout('1/1/2021 3:35 PM', '1/1/2021 4:00 PM', 300)]. *)
Definition w_two : workout :=
  Workout (mkBase t_1535 t_1600 Workout_icon "Workout" (Some 300%Q)).

(** [Workout('1/1/2021 3:35 PM', '1/1/2021 4:00 PM')]. *)
Definition w_plain : workout :=
  Workout (mkBase t_1535 t_1600 Workout_icon "Workout" None).

(** [RunWorkout('1/1/2021 3:35 PM', '1/1/2021 4:00 PM', 0, 300, [boston])]. *)
Definition run_one_point : workout :=
  RunWorkout (mkBase t_1535 t_1600 RunWorkout_icon "Running" (Some 300%Q))
    0%Q (Some [boston]).

(** [RunWorkout('1/1/2021 3:35 PM', '1/1/2021 4:00 PM', 0, None, [])]. *)
Definition run_empty_route : workout :=
  RunWorkout (mkBase t_1535 t_1600 RunWorkout_icon "Running" None)
    0%Q (Some []).

(** [SwimWorkout('1/1/2021 3:35 PM', '1/1/2021 4:00 PM', 2.5)]. *)
Definition swim_plain : workout :=
  SwimWorkout (mkBase t_1535 t_1600 SwimWorkout_icon "Swimming" None) (5 # 2)%Q.

(** [RunWorkout('9/30/2021 1:35 PM', '9/30/2021 3:57 PM', 100,
              route_gps_points=[boston, newton])]. *)
Definition run_with_gps : workout :=
  RunWorkout
    (mkBase (make 2021 9 30 13 35 0) (make 2021 9 30 15 57 0)
       RunWorkout_icon "Running" None)
    100%Q (Some [boston; newton]).

(** A sequence of calls that touches every public operation. *)
Definition every_call : list call :=
  [Call_set_start "yesterday"; Call_set_start "9/30/2021 1:00 PM";
   Call_set_end "9/30/2021 4:00 PM"; Call_set_calories (Some 300%Q);
   Call_set_elev 250%Q; Call_get_calories; Call_get_duration;
   Call_get_start; Call_get_end; Call_get_kind; Call_get_elev;
   Call_get_pace; Call_eq run_one_point; Call_str]%string.

Definition time_list : list (string * string) :=
  [("1/1/2021 2:00 PM", "1/1/2021 2:05 PM");
   ("3/12/2021 1:22 PM", "3/12/2021 1:32 PM")]%string.

(** ** Further words for the properties of the code *)

(** The record is a running workout. *)
Definition is_run (w : workout) : bool :=
  match w with
  | RunWorkout _ _ _ => true
  | _ => false
  end.


(** The sum of the [elev] attributes of the running workouts of a list. *)
Fixpoint sum_elev (ws : list workout) : Q :=
  match ws with
  | [] => 0%Q
  | RunWorkout _ e _ :: rest => (e + sum_elev rest)%Q
  | _ :: rest => sum_elev rest
  end.

(** Each pair with its two strings exchanged. *)
Definition swap_pairs (pairs : list (string * string)) : list (string * string) :=
  map (fun p => (snd p, fst p)) pairs.


(** The byte of a line feed does not occur in the string. *)
Fixpoint no_newline (s : string) : bool :=
  match s with
  | EmptyString => true
  | String c r => negb (Ascii.eqb c (ascii_of_nat 10)) && no_newline r
  end.

(** [s.split('\n')]. *)
Fixpoint split_lines (s : string) : list string :=
  match s with
  | EmptyString => [EmptyString]
  | String c r =>
      if Ascii.eqb c (ascii_of_nat 10) then EmptyString :: split_lines r
      else match split_lines r with
           | [] => [String c EmptyString]
           | h :: t => String c h :: t
           end
  end.

(** * Properties *)

Example icon_code_points :
  py_len Workout_icon = 1 /\ py_len RunWorkout_icon = 3 /\ py_len SwimWorkout_icon = 2.
Proof. repeat split; reflexivity. Qed.

Example sample_parse_ok :
  Sample.parse "1/1/2021 2:05 PM" = Ok (make 2021 1 1 14 5 0).
Proof. reflexivity. Qed.

Example sample_parse_fails : Sample.parse "yesterday" = Raise ParserError.
Proof. reflexivity. Qed.

(** The two scenarios of the example driver: half an hour at the base rate
    is 100 calories, and explicit calories are returned as given. *)
Example w_one_calories :
  result_Qeq
    (w <- Workout_init Sample.parse "1/1/2021 3:30 PM" "1/1/2021 4:00 PM" None ;;
     get_calories Sample.gpsDistance w)
    (Ok 100%Q).
Proof. vm_compute. reflexivity. Qed.

Example w_two_calories :
  Workout_init Sample.parse "1/1/2021 3:35 PM" "1/1/2021 4:00 PM" (Some 300%Q)
  = Ok w_two
  /\ get_calories Sample.gpsDistance w_two = Ok 300%Q.
Proof. split; reflexivity. Qed.

(** A record whose [end] precedes its [start] has a negative estimate. *)
Example negative_duration_calories :
  result_Qeq
    (w <- Workout_init Sample.parse "1/1/2021 4:00 PM" "1/1/2021 3:30 PM" None ;;
     get_calories Sample.gpsDistance w)
    (Ok (- (100))%Q).
Proof. vm_compute. reflexivity. Qed.

(** The empty route, through the constructor. *)
Example run_empty_route_raises :
  RunWorkout_init Sample.parse "1/1/2021 3:35 PM" "1/1/2021 4:00 PM"
    0%Q None (Some []) = Ok run_empty_route
  /\ get_calories Sample.gpsDistance run_empty_route = Raise IndexError
  /\ total_calories Sample.gpsDistance [w_two; run_empty_route] = Raise IndexError.
Proof. repeat split; reflexivity. Qed.

(** Two running workouts with different routes and the same derived
    calories are equal; a base record and a swimming record with the same
    times and calories are not. *)
Example eq_ignores_route :
  workout_eq Sample.gpsDistance
    (RunWorkout (base_of run_one_point) 0%Q (Some [boston]))
    (RunWorkout (base_of run_one_point) 0%Q (Some [newton]))
  = Ok true.
Proof. reflexivity. Qed.

Example eq_across_classes :
  workout_eq Sample.gpsDistance w_two (SwimWorkout (base_of w_two) 2%Q) = Ok false
  /\ workout_eq Sample.gpsDistance w_two (RunWorkout (base_of w_two) 0%Q None)
     = Ok false.
Proof. split; reflexivity. Qed.

(** The card of the swimming workout of the example driver. *)
Example swim_card :
  Workout_str Sample.gpsDistance Sample.str_timedelta Sample.str_round1
    (SwimWorkout
       (mkBase (make 2021 9 30 13 35 0) (make 2021 9 30 13 57 0)
          SwimWorkout_icon "Swimming" None)
       (5 # 2)%Q)
  = Ok ("|––––––––––––––––|" ++ newline
        ++ "|                |" ++ newline
        ++ "| 🏊‍             |" ++ newline
        ++ "| Swimming       |" ++ newline
        ++ "|                |" ++ newline
        ++ "| 0:22:00        |" ++ newline
        ++ "| 146.7 Calories |" ++ newline
        ++ "|                |" ++ newline
        ++ "|________________|" ++ newline)%string.
Proof. vm_compute. reflexivity. Qed.

(** ** Agreement of outcomes *)

Lemma result_Qeq_refl (r : result Q) : result_Qeq r r.
Proof. destruct r; simpl; [apply Qeq_refl | reflexivity]. Qed.


Lemma result_Qeq_trans (r1 r2 r3 : result Q) :
  result_Qeq r1 r2 -> result_Qeq r2 r3 -> result_Qeq r1 r3.
Proof.
  destruct r1, r2, r3; simpl; try tauto.
  - apply Qeq_trans.
  - intros -> ->; reflexivity.
Qed.

(** ** Calories *)

Section CaloriesFacts.

Variable gpsDistance : point -> point -> Q.

(** The loop of [RunWorkout.get_calories] adds, to the distance it starts
    with, the consecutive distances of the last point seen followed by
    the points it walks. *)
Lemma route_loop_distance (ps : list point) :
  forall (dist : Q) (lastP : point),
    Qeq (fst (route_loop gpsDistance ps (dist, lastP)))
        (dist + consecutive_distance gpsDistance (lastP :: ps)).
Proof.
  induction ps as [|p ps IH]; intros dist lastP.
  - simpl. ring.
  - change (route_loop gpsDistance (p :: ps) (dist, lastP))
      with (route_loop gpsDistance ps ((dist + gpsDistance lastP p)%Q, p)).
    rewrite IH.
    change (consecutive_distance gpsDistance (lastP :: p :: ps))
      with (gpsDistance lastP p + consecutive_distance gpsDistance (p :: ps))%Q.
    ring.
Qed.

(** On a route that is present and not empty the running workout returns
    the consecutive distance of the route at 100 per kilometre. *)
Lemma run_route_calories (b : base) (e : Q) (p : point) (ps : list point) :
  result_Qeq (get_calories gpsDistance (RunWorkout b e (Some (p :: ps))))
             (Ok (consecutive_distance gpsDistance (p :: ps) * 100)%Q).
Proof.
  unfold result_Qeq, get_calories, RunWorkout_get_calories, getitem0, bind,
    slice_from1, tl, RunWorkout_cals_per_km.
  rewrite route_loop_distance. ring.
Qed.

(** Without explicit calories the base computation is the hourly rate
    times the duration in hours. *)
Lemma Workout_get_calories_estimate (b : base) :
  calories b = None ->
  Qeq (Workout_get_calories b) (200 * duration_hours b).
Proof.
  intros H. unfold Workout_get_calories, duration_hours, Workout_cal_per_hr.
  rewrite H. field.
Qed.

(** C1 (as amended): with explicit calories [c], [get_calories] returns
    [c] itself for every record whose route is absent, which covers the
    base and swimming records and a running record built without a route;
    on a running record whose route is present and not empty the value
    from the route, 100 times the consecutive distance, is returned
    whatever [c] is. *)
Theorem get_calories_explicit (w : workout) (c : Q) :
  calories (base_of w) = Some c ->
  (route_of w = None -> get_calories gpsDistance w = Ok c)
  /\ (forall p ps, route_of w = Some (p :: ps) ->
        result_Qeq (get_calories gpsDistance w)
                   (Ok (consecutive_distance gpsDistance (p :: ps) * 100)%Q)).
Proof.
  intros Hc. split.
  - intros Hr. destruct w as [b | b e r | b p]; simpl in *.
    + unfold Workout_get_calories. now rewrite Hc.
    + subst r. simpl. unfold Workout_get_calories. now rewrite Hc.
    + unfold SwimWorkout_get_calories. now rewrite Hc.
  - intros p ps Hr. destruct w as [b | b e r | b q]; simpl in Hr;
      try discriminate.
    subst r. apply run_route_calories.
Qed.

(** C2: on a route [p0, p1, ...] of two points or more the running workout
    returns the sum of the distances of consecutive points, from index 0,
    times 100; on the route from Boston to Newton that is the one
    distance times 100. *)
Theorem run_get_calories_route :
  (forall (b : base) (e : Q) (p0 p1 : point) (ps : list point),
      result_Qeq (get_calories gpsDistance (RunWorkout b e (Some (p0 :: p1 :: ps))))
                 (Ok (consecutive_distance gpsDistance (p0 :: p1 :: ps) * 100)%Q))
  /\ (forall (b : base) (e : Q),
        result_Qeq (get_calories gpsDistance (RunWorkout b e (Some [boston; newton])))
                   (Ok (gpsDistance boston newton * 100)%Q)).
Proof.
  split.
  - intros b e p0 p1 ps. apply run_route_calories.
  - intros b e.
    eapply result_Qeq_trans; [apply run_route_calories|].
    simpl. ring.
Qed.

(** C3 (what the code does): on a route that is present and empty
    [get_calories] raises [IndexError], at [self.route_gps_points[0]];
    on a route of one point it returns 0. *)
Theorem run_get_calories_short_route (b : base) (e : Q) :
  get_calories gpsDistance (RunWorkout b e (Some [])) = Raise IndexError
  /\ (forall p, get_calories gpsDistance (RunWorkout b e (Some [p])) = Ok 0%Q).
Proof. split; [reflexivity | intros p; reflexivity]. Qed.

End CaloriesFacts.

(** C1 (as stated) fails: the running workout built with explicit calories
    300 and a route of the single point Boston has a route of fewer than two
    points, and its [get_calories] is 0, not 300. *)
Lemma explicit_calories_one_point_route :
  RunWorkout_init Sample.parse "1/1/2021 3:35 PM" "1/1/2021 4:00 PM"
    0%Q (Some 300%Q) (Some [boston]) = Ok run_one_point
  /\ calories (base_of run_one_point) = Some 300%Q
  /\ route_of run_one_point = Some [boston]
  /\ (List.length [boston] < 2)%nat
  /\ get_calories Sample.gpsDistance run_one_point = Ok 0%Q
  /\ ~ Qeq 0 300.
Proof.
  repeat split; try reflexivity.
  - simpl; lia.
  - intros H; discriminate H.
Qed.

Lemma get_calories_explicit_witness :
  calories (base_of w_two) = Some 300%Q
  /\ ((route_of w_two = None -> get_calories Sample.gpsDistance w_two = Ok 300%Q)
      /\ (forall p ps, route_of w_two = Some (p :: ps) ->
            result_Qeq (get_calories Sample.gpsDistance w_two)
                       (Ok (consecutive_distance Sample.gpsDistance (p :: ps) * 100)%Q))).
Proof.
  split; [reflexivity|].
  apply (get_calories_explicit Sample.gpsDistance w_two 300%Q).
  reflexivity.
Defined.

(** ** Equality and the hourly rates *)

Section EqualityAndRates.

Variable gpsDistance : point -> point -> Q.

(** When [Workout.__eq__] answers [True]. *)
Lemma Workout_eq_true (self other : workout) :
  Workout_eq gpsDistance self other = Ok true <->
  same_type self other = true
  /\ start (base_of self) = start (base_of other)
  /\ end_ (base_of self) = end_ (base_of other)
  /\ kind (base_of self) = kind (base_of other)
  /\ equal_derived_calories gpsDistance self other.
Proof.
  unfold Workout_eq, and_then, equal_derived_calories, eqb.
  destruct (same_type self other);
    [| split; [discriminate | intros [H _]; discriminate H]].
  destruct (Z.eqb_spec (start (base_of self)) (start (base_of other))) as [Hs|Hs];
    [| split; [discriminate | tauto]].
  destruct (Z.eqb_spec (end_ (base_of self)) (end_ (base_of other))) as [He|He];
    [| split; [discriminate | tauto]].
  destruct (String.eqb_spec (kind (base_of self)) (kind (base_of other))) as [Hk|Hk];
    [| split; [discriminate | tauto]].
  destruct (get_calories gpsDistance self) as [c1|e1];
    [| split; [discriminate | intros (_ & _ & _ & _ & x & y & H & _); discriminate H]].
  destruct (get_calories gpsDistance other) as [c2|e2];
    [| split; [discriminate | intros (_ & _ & _ & _ & x & y & _ & H & _); discriminate H]].
  simpl. split.
  - intros H. injection H as H. apply Qeq_bool_iff in H.
    repeat split; try assumption. now exists c1, c2.
  - intros (_ & _ & _ & _ & x & y & Hx & Hy & Hxy).
    injection Hx as <-. injection Hy as <-.
    f_equal. now apply Qeq_bool_iff.
Qed.

(** [Workout.__eq__] answers [False], and calls nothing that could raise,
    on two objects of different classes. *)
Lemma Workout_eq_other_type (self other : workout) :
  same_type self other = false -> Workout_eq gpsDistance self other = Ok false.
Proof. intros H. unfold Workout_eq, and_then. now rewrite H. Qed.

(** When [RunWorkout.__eq__] answers [True] on two running workouts. *)
Lemma RunWorkout_eq_true (b1 b2 : base) (e1 e2 : Q) (r1 r2 : option (list point)) :
  RunWorkout_eq gpsDistance (RunWorkout b1 e1 r1) (RunWorkout b2 e2 r2) = Ok true <->
  Workout_eq gpsDistance (RunWorkout b1 e1 r1) (RunWorkout b2 e2 r2) = Ok true
  /\ Qeq e1 e2.
Proof.
  unfold RunWorkout_eq.
  destruct (Workout_eq gpsDistance (RunWorkout b1 e1 r1) (RunWorkout b2 e2 r2))
    as [[|]|e]; simpl.
  - split.
    + intros H. injection H as H. split; [reflexivity | now apply Qeq_bool_iff].
    + intros [_ H]. f_equal. now apply Qeq_bool_iff.
  - split; [discriminate | intros [H _]; discriminate H].
  - split; [discriminate | intros [H _]; discriminate H].
Qed.

(** C4: [a == b] is [True] exactly when the two records are of the same
    class, have equal [start], equal [end], equal [kind] and equal values
    of [get_calories()], and, for two running workouts, equal [elev]; the
    route does not occur among the conditions.  Two records of different
    classes compare [False]. *)
Theorem workout_eq_iff (a b : workout) :
  (workout_eq gpsDistance a b = Ok true <->
   same_type a b = true
   /\ start (base_of a) = start (base_of b)
   /\ end_ (base_of a) = end_ (base_of b)
   /\ kind (base_of a) = kind (base_of b)
   /\ equal_derived_calories gpsDistance a b
   /\ equal_elev a b)
  /\ (same_type a b = false -> workout_eq gpsDistance a b = Ok false).
Proof.
  split.
  - destruct a as [ba | ba ea ra | ba pa], b as [bb | bb eb rb | bb pb];
      unfold workout_eq, method_eq;
      try (split; [ intros H; apply Workout_eq_true in H; simpl; tauto
                  | intros H; apply Workout_eq_true; simpl in H; tauto ]).
    + (* Workout == RunWorkout: the method of the subclass answers *)
      unfold RunWorkout_eq. rewrite Workout_eq_other_type by reflexivity.
      simpl. split; [discriminate | intros [H _]; discriminate H].
    + (* RunWorkout == Workout *)
      unfold RunWorkout_eq. rewrite Workout_eq_other_type by reflexivity.
      simpl. split; [discriminate | intros [H _]; discriminate H].
    + (* RunWorkout == RunWorkout *)
      rewrite RunWorkout_eq_true, Workout_eq_true. simpl. tauto.
    + (* RunWorkout == SwimWorkout *)
      unfold RunWorkout_eq. rewrite Workout_eq_other_type by reflexivity.
      simpl. split; [discriminate | intros [H _]; discriminate H].
  - intros H.
    destruct a as [ba | ba ea ra | ba pa], b as [bb | bb eb rb | bb pb];
      try discriminate H; unfold workout_eq, method_eq, RunWorkout_eq;
      rewrite Workout_eq_other_type by reflexivity; reflexivity.
Qed.

(** C5: a base record without explicit calories returns 200 times the
    duration in hours, which is negative when [end] precedes [start]; a
    running workout without a route and without explicit calories returns
    what the base computation returns, at the base rate of 200. *)
Theorem base_rate_estimate (b : base) :
  calories b = None ->
  result_Qeq (get_calories gpsDistance (Workout b))
             (Ok (200 * duration_hours b)%Q)
  /\ (forall e : Q,
        get_calories gpsDistance (RunWorkout b e None)
        = get_calories gpsDistance (Workout b)
        /\ result_Qeq (get_calories gpsDistance (RunWorkout b e None))
                      (Ok (Workout_cal_per_hr * duration_hours b)%Q)).
Proof.
  intros H. split; [| intros e; split; [reflexivity|]]; simpl;
    now apply Workout_get_calories_estimate.
Qed.

(** C6: a swimming workout without explicit calories returns 400 times the
    duration in hours, twice the base rate; [get_calories] does not depend
    on [pace]; the class takes [__eq__] from the base class, and the
    answer of [==] on two swimming workouts does not depend on either
    [pace]. *)
Theorem swim_rate_estimate (b : base) :
  calories b = None ->
  (forall pace : Q,
      result_Qeq (get_calories gpsDistance (SwimWorkout b pace))
                 (Ok (400 * duration_hours b)%Q))
  /\ Qeq SwimWorkout_cal_per_hr (2 * Workout_cal_per_hr)
  /\ (forall (b' : base) (pace pace' : Q),
        get_calories gpsDistance (SwimWorkout b' pace)
        = get_calories gpsDistance (SwimWorkout b' pace'))
  /\ (forall (b' : base) (pace : Q),
        method_eq gpsDistance (SwimWorkout b' pace) = Workout_eq gpsDistance)
  /\ (forall (b1 b2 : base) (p1 p2 p1' p2' : Q),
        workout_eq gpsDistance (SwimWorkout b1 p1) (SwimWorkout b2 p2)
        = workout_eq gpsDistance (SwimWorkout b1 p1') (SwimWorkout b2 p2')).
Proof.
  intros H. repeat split.
  intros pace. simpl.
  unfold SwimWorkout_get_calories, duration_hours, SwimWorkout_cal_per_hr.
  rewrite H. field.
Qed.

End EqualityAndRates.

(** ** Aggregates *)

Section AggregateFacts.

Variable parse : string -> result datetime.
Variable gpsDistance : point -> point -> Q.

(** The loop of [total_calories], started at [cals]. *)
Lemma total_calories_from_sum (ws : list workout) :
  forall cals : Q,
    result_Qeq (total_calories_from gpsDistance cals ws)
               (s <- sum_calories gpsDistance ws ;; Ok (cals + s)%Q).
Proof.
  induction ws as [|w ws IH]; intros cals.
  - simpl. ring.
  - cbn [total_calories_from sum_calories].
    destruct (get_calories gpsDistance w) as [c|e]; [|reflexivity].
    cbn [bind].
    eapply result_Qeq_trans; [apply IH|].
    destruct (sum_calories gpsDistance ws) as [s|e]; [|reflexivity].
    simpl. ring.
Qed.

(** C7: [total_calories] of the empty sequence is 0; of two records it is
    the sum of the two values of [get_calories], each dispatched on the
    class of its record (and the exception of the first call that raises
    one); of any sequence it is the sum over its elements. *)
Theorem total_calories_sum :
  total_calories gpsDistance [] = Ok 0%Q
  /\ (forall w1 w2 : workout,
        result_Qeq (total_calories gpsDistance [w1; w2])
                   (c1 <- get_calories gpsDistance w1 ;;
                    c2 <- get_calories gpsDistance w2 ;;
                    Ok (c1 + c2)%Q))
  /\ (forall ws : list workout,
        result_Qeq (total_calories gpsDistance ws)
                   (sum_calories gpsDistance ws)).
Proof.
  assert (Hall : forall ws : list workout,
             result_Qeq (total_calories gpsDistance ws)
                        (sum_calories gpsDistance ws)).
  { intros ws. unfold total_calories.
    eapply result_Qeq_trans; [apply total_calories_from_sum|].
    destruct (sum_calories gpsDistance ws) as [s|e]; [|reflexivity].
    simpl. ring. }
  split; [reflexivity | split; [| exact Hall]].
  intros w1 w2.
  eapply result_Qeq_trans; [apply Hall|].
  cbn [sum_calories].
  destruct (get_calories gpsDistance w1) as [c1|e1]; [|reflexivity].
  destruct (get_calories gpsDistance w2) as [c2|e2]; [|reflexivity].
  simpl. ring.
Qed.

(** The loop of [total_elapsed_time], started at [total]. *)
Lemma total_elapsed_time_from_sum (pairs : list (string * string)) :
  forall total : Q,
    result_Qeq (total_elapsed_time_from parse total pairs)
               (t <- sum_elapsed parse pairs ;; Ok (total + t)%Q).
Proof.
  induction pairs as [|[start_s end_s] pairs IH]; intros total.
  - simpl. ring.
  - cbn [total_elapsed_time_from sum_elapsed].
    destruct (parse start_s) as [s|e]; [|reflexivity].
    cbn [bind].
    destruct (parse end_s) as [e|e']; [|reflexivity].
    cbn [bind].
    eapply result_Qeq_trans; [apply IH|].
    destruct (sum_elapsed parse pairs) as [t|e0]; [|reflexivity].
    simpl. ring.
Qed.

(** C8: [total_elapsed_time] parses the two strings of each pair and
    returns the sum of [end - start] in seconds (or the exception of the
    first string that does not parse); it is 0 on the empty sequence; and
    when the parser reads the four strings of the example as the instants
    they name, the total is 900. *)
Theorem total_elapsed_time_sum :
  parse "1/1/2021 2:00 PM" = Ok (make 2021 1 1 14 0 0) ->
  parse "1/1/2021 2:05 PM" = Ok (make 2021 1 1 14 5 0) ->
  parse "3/12/2021 1:22 PM" = Ok (make 2021 3 12 13 22 0) ->
  parse "3/12/2021 1:32 PM" = Ok (make 2021 3 12 13 32 0) ->
  total_elapsed_time parse [] = Ok 0%Q
  /\ (forall pairs : list (string * string),
        result_Qeq (total_elapsed_time parse pairs) (sum_elapsed parse pairs))
  /\ result_Qeq (total_elapsed_time parse time_list) (Ok 900%Q).
Proof.
  intros H1 H2 H3 H4.
  split; [reflexivity | split].
  - intros pairs. unfold total_elapsed_time.
    eapply result_Qeq_trans; [apply total_elapsed_time_from_sum|].
    destruct (sum_elapsed parse pairs) as [t|e]; [|reflexivity].
    simpl. ring.
  - unfold total_elapsed_time, time_list.
    cbn [total_elapsed_time_from].
    rewrite H1, H2, H3, H4. cbn [bind].
    vm_compute. reflexivity.
Qed.

End AggregateFacts.

Lemma total_elapsed_time_sum_witness :
  total_elapsed_time Sample.parse [] = Ok 0%Q
  /\ (forall pairs : list (string * string),
        result_Qeq (total_elapsed_time Sample.parse pairs)
                   (sum_elapsed Sample.parse pairs))
  /\ result_Qeq (total_elapsed_time Sample.parse time_list) (Ok 900%Q).
Proof.
  apply (total_elapsed_time_sum Sample.parse); reflexivity.
Defined.

Lemma base_rate_estimate_witness :
  calories (base_of w_plain) = None
  /\ result_Qeq (get_calories Sample.gpsDistance w_plain)
                (Ok (200 * duration_hours (base_of w_plain))%Q).
Proof.
  split; [reflexivity|].
  apply (proj1 (base_rate_estimate Sample.gpsDistance (base_of w_plain) eq_refl)).
Defined.

Lemma swim_rate_estimate_witness :
  calories (base_of swim_plain) = None
  /\ result_Qeq (get_calories Sample.gpsDistance swim_plain)
                (Ok (400 * duration_hours (base_of swim_plain))%Q).
Proof.
  split; [reflexivity|].
  apply (proj1 (swim_rate_estimate Sample.gpsDistance (base_of swim_plain) eq_refl)
           (5 # 2)%Q).
Defined.

(** ** Operations on one record *)

Section OperationFacts.

Variable parse : string -> result datetime.
Variable gpsDistance : point -> point -> Q.
Variable str_timedelta : timedelta -> string.
Variable str_round1 : Q -> string.

(** What the three constructors return carries the constants of its
    class. *)
Lemma constructed_constants (w : workout) :
  constructed parse w -> has_variant_constants w.
Proof.
  unfold constructed, Workout_init, RunWorkout_init, SwimWorkout_init,
    Workout_init_base.
  intros [(s & e & c & H) | [(s & e & el & c & r & H) | (s & e & p & c & H)]];
    destruct (parse s) as [ts|]; try discriminate H;
    destruct (parse e) as [te|]; try discriminate H;
    simpl in H; injection H as <-; split; reflexivity.
Qed.

(** One call leaves the class of the object, its [kind] and its [icon] as
    they were, whether it returns or raises. *)
Lemma run_keeps_kind_icon (c : call) (w : workout) :
  let w' := snd (run parse gpsDistance str_timedelta str_round1 c w) in
  variant_kind w' = variant_kind w
  /\ variant_icon w' = variant_icon w
  /\ kind (base_of w') = kind (base_of w)
  /\ icon (base_of w') = icon (base_of w).
Proof.
  destruct c; simpl; try (repeat split; reflexivity).
  - destruct w; repeat split; reflexivity.
  - unfold set_start. destruct (parse start_s); destruct w;
      repeat split; reflexivity.
  - unfold set_end. destruct (parse end_s); destruct w;
      repeat split; reflexivity.
  - destruct w; repeat split; reflexivity.
Qed.

Lemma run_all_keeps_kind_icon (cs : list call) :
  forall w : workout,
    let w' := run_all parse gpsDistance str_timedelta str_round1 cs w in
    variant_kind w' = variant_kind w
    /\ variant_icon w' = variant_icon w
    /\ kind (base_of w') = kind (base_of w)
    /\ icon (base_of w') = icon (base_of w).
Proof.
  induction cs as [|c cs IH]; intros w.
  - repeat split; reflexivity.
  - cbn [run_all fold_left].
    specialize (IH (snd (run parse gpsDistance str_timedelta str_round1 c w))).
    cbv zeta in IH. unfold run_all in IH.
    destruct IH as (K & I & k & i).
    destruct (run_keeps_kind_icon c w) as (K' & I' & k' & i').
    cbv zeta. unfold run_all. cbn [fold_left].
    repeat split; etransitivity; eassumption.
Qed.

(** C9: a record returned by a constructor has the [kind] and the [icon]
    of its class, and after any sequence of public operations (the
    getters, the four setters, equality, rendering), returning or
    raising, both are what they were at construction. *)
Theorem kind_icon_invariant (w : workout) (cs : list call) :
  constructed parse w ->
  has_variant_constants w
  /\ has_variant_constants
       (run_all parse gpsDistance str_timedelta str_round1 cs w)
  /\ kind (base_of (run_all parse gpsDistance str_timedelta str_round1 cs w))
     = kind (base_of w)
  /\ icon (base_of (run_all parse gpsDistance str_timedelta str_round1 cs w))
     = icon (base_of w).
Proof.
  intros Hc. apply constructed_constants in Hc.
  destruct Hc as [Hk Hi].
  destruct (run_all_keeps_kind_icon cs w) as (K & I & k & i).
  cbv zeta in K, I, k, i.
  repeat split; try assumption.
  - rewrite k, K. exact Hk.
  - rewrite i, I. exact Hi.
Qed.

(** C10: [set_start] on a string that does not parse raises what the
    parser raised and leaves the object as it was, and on a string that
    parses returns and changes [start] alone; the same holds of
    [set_end] and [end]; [set_calories] always returns and changes
    [calories] alone. *)
Theorem setters_frame (w : workout) :
  (forall (s : string) (e : exn),
      parse s = Raise e ->
      set_start parse s w = (Raise e, w) /\ set_end parse s w = (Raise e, w))
  /\ (forall (s : string) (t : datetime),
        parse s = Ok t ->
        fst (set_start parse s w) = Ok tt
        /\ only_start_changed w (snd (set_start parse s w)) t)
  /\ (forall (s : string) (t : datetime),
        parse s = Ok t ->
        fst (set_end parse s w) = Ok tt
        /\ only_end_changed w (snd (set_end parse s w)) t)
  /\ (forall cal : option Q,
        fst (set_calories cal w) = Ok tt
        /\ only_calories_changed w (snd (set_calories cal w)) cal).
Proof.
  unfold set_start, set_end, set_calories, only_start_changed,
    only_end_changed, only_calories_changed, same_outside_base.
  split; [| split; [| split]].
  - intros s e Hp. rewrite Hp. split; reflexivity.
  - intros s t Hp. rewrite Hp.
    destruct w as [[]|[]|[]]; repeat split; reflexivity.
  - intros s t Hp. rewrite Hp.
    destruct w as [[]|[]|[]]; repeat split; reflexivity.
  - intros cal. destruct w as [[]|[]|[]]; repeat split; reflexivity.
Qed.

End OperationFacts.

Lemma kind_icon_invariant_witness :
  constructed Sample.parse run_with_gps
  /\ kind (base_of (run_all Sample.parse Sample.gpsDistance Sample.str_timedelta
                      Sample.str_round1 every_call run_with_gps))
     = "Running"%string
  /\ icon (base_of (run_all Sample.parse Sample.gpsDistance Sample.str_timedelta
                      Sample.str_round1 every_call run_with_gps))
     = RunWorkout_icon.
Proof.
  assert (Hc : constructed Sample.parse run_with_gps).
  { right; left.
    exists "9/30/2021 1:35 PM"%string, "9/30/2021 3:57 PM"%string, 100%Q, None,
      (Some [boston; newton]).
    reflexivity. }
  split; [exact Hc|].
  pose proof (kind_icon_invariant Sample.parse Sample.gpsDistance
                Sample.str_timedelta Sample.str_round1 run_with_gps every_call Hc)
    as (_ & [Hk Hi] & _ & _).
  split; [exact Hk | exact Hi].
Defined.

Lemma setters_frame_witness :
  Sample.parse "yesterday" = Raise ParserError
  /\ set_start Sample.parse "yesterday" w_two = (Raise ParserError, w_two)
  /\ set_end Sample.parse "yesterday" w_two = (Raise ParserError, w_two).
Proof.
  split; [reflexivity|].
  apply (proj1 (setters_frame Sample.parse w_two) "yesterday"%string ParserError).
  reflexivity.
Defined.

(** * Further properties of the code *)

(** ** Calories *)

Lemma Sample_gpsDistance_nonneg (p q : point) : (0 <= Sample.gpsDistance p q)%Q.
Proof.
  unfold Sample.gpsDistance.
  apply Qmult_le_0_compat; [| discriminate].
  replace 0%Q with (0 + 0)%Q by reflexivity.
  apply Qplus_le_compat; apply Qabs_nonneg.
Qed.


Section MoreCalories.

Variable gpsDistance : point -> point -> Q.


Lemma consecutive_distance_nonneg (r : list point) :
  (forall p q, 0 <= gpsDistance p q)%Q ->
  (0 <= consecutive_distance gpsDistance r)%Q.
Proof.
  intros Hd. induction r as [|p [|q r] IH]; try apply Qle_refl.
  change (consecutive_distance gpsDistance (p :: q :: r))
    with (gpsDistance p q + consecutive_distance gpsDistance (q :: r))%Q.
  replace 0%Q with (0 + 0)%Q by reflexivity.
  apply Qplus_le_compat; [apply Hd | exact IH].
Qed.




(** X2: when the distance between two points is never negative, the
    calories of a running workout with a route are never negative. *)
Theorem route_calories_nonneg (b : base) (e : Q) (r : list point) (c : Q) :
  (forall p q, 0 <= gpsDistance p q)%Q ->
  get_calories gpsDistance (RunWorkout b e (Some r)) = Ok c ->
  (0 <= c)%Q.
Proof.
  intros Hd Hc.
  destruct r as [|p ps]; [discriminate Hc|].
  pose proof (run_route_calories gpsDistance b e p ps) as H.
  rewrite Hc in H. unfold result_Qeq in H. rewrite H.
  apply Qmult_le_0_compat; [| discriminate].
  now apply consecutive_distance_nonneg.
Qed.



End MoreCalories.

Lemma route_calories_nonneg_witness :
  get_calories Sample.gpsDistance run_with_gps
  = Ok (fst (route_loop Sample.gpsDistance [newton] (0%Q, boston)) * 100)%Q
  /\ (0 <= fst (route_loop Sample.gpsDistance [newton] (0%Q, boston)) * 100)%Q.
Proof.
  split; [reflexivity|].
  apply (route_calories_nonneg Sample.gpsDistance (base_of run_with_gps) 100%Q
           [boston; newton] _ Sample_gpsDistance_nonneg).
  reflexivity.
Defined.


(** ** The estimate, the setters and the constructors *)

Section MoreOperations.

Variable parse : string -> result datetime.
Variable gpsDistance : point -> point -> Q.



(** X6: after [set_calories(c)] a record without a route returns [c]; on a
    running workout whose route is present [set_calories] changes nothing
    that [get_calories] returns or raises. *)
Theorem set_calories_then_get_calories (w : workout) :
  (forall c : Q,
      route_of w = None ->
      get_calories gpsDistance (snd (set_calories (Some c) w)) = Ok c)
  /\ (forall (cal : option Q) (r : list point),
        route_of w = Some r ->
        get_calories gpsDistance (snd (set_calories cal w))
        = get_calories gpsDistance w).
Proof.
  split.
  - intros c Hr. destruct w as [b | b el r | b pc]; cbn [route_of] in Hr;
      try subst r; reflexivity.
  - intros cal r Hr. destruct w as [b | b el r' | b pc]; cbn [route_of] in Hr;
      try discriminate Hr. subst r'. reflexivity.
Qed.

(** X7: the object left by two setters does not depend on the order of the
    two calls, whether the strings parse or not: [set_start] and [set_end],
    either of them and [set_calories], and each of the three and
    [set_elev]. *)
Theorem setters_commute (w : workout) (s e : string) (cal : option Q) (el : Q) :
  snd (set_end parse e (snd (set_start parse s w)))
  = snd (set_start parse s (snd (set_end parse e w)))
  /\ snd (set_calories cal (snd (set_start parse s w)))
     = snd (set_start parse s (snd (set_calories cal w)))
  /\ snd (set_calories cal (snd (set_end parse e w)))
     = snd (set_end parse e (snd (set_calories cal w)))
  /\ snd (set_elev el (snd (set_start parse s w)))
     = snd (set_start parse s (snd (set_elev el w)))
  /\ snd (set_elev el (snd (set_end parse e w)))
     = snd (set_end parse e (snd (set_elev el w)))
  /\ snd (set_elev el (snd (set_calories cal w)))
     = snd (set_calories cal (snd (set_elev el w))).
Proof.
  unfold set_start, set_end, set_calories, set_elev.
  destruct (parse s) as [ts|xs], (parse e) as [te|xe], w as [b | b el' r | b pc];
    repeat split; reflexivity.
Qed.

(** X8: [set_start] and [set_end] on strings that parse leave a record
    whose [get_start], [get_end] and [get_duration] are the two parsed
    instants and their difference, whatever the record held before. *)
Theorem set_start_end_then_getters (w : workout) (s e : string)
    (ts te : datetime) :
  parse s = Ok ts ->
  parse e = Ok te ->
  get_start (snd (set_end parse e (snd (set_start parse s w)))) = ts
  /\ get_end (snd (set_end parse e (snd (set_start parse s w)))) = te
  /\ get_duration (snd (set_end parse e (snd (set_start parse s w))))
     = te - ts.
Proof.
  intros Hs He. unfold set_start, set_end. rewrite Hs.
  cbn [snd]. rewrite He.
  destruct w as [b | b el r | b pc]; repeat split; reflexivity.
Qed.

(** X9: [set_elev(e)] followed by [get_elev()] returns [e] on a running
    workout, and [get_calories] is what it was; on a record of another
    class both calls raise [AttributeError] and the record is unchanged. *)
Theorem set_elev_then_get_elev (w : workout) (e : Q) :
  (is_run w = true ->
   fst (set_elev e w) = Ok tt
   /\ get_elev (snd (set_elev e w)) = Ok e
   /\ get_calories gpsDistance (snd (set_elev e w)) = get_calories gpsDistance w)
  /\ (is_run w = false ->
      set_elev e w = (Raise AttributeError, w)
      /\ get_elev w = Raise AttributeError).
Proof.
  destruct w as [b | b el r | b pc]; split; intros H; try discriminate H;
    repeat split; reflexivity.
Qed.

(** X10: the three constructors parse the start string before the end
    string: an exception of the start string is the one raised, then one
    of the end string; when both parse, the record holds the two instants
    and the arguments it was given. *)
Theorem constructors_outcome (s e : string) (cal : option Q) (el pc : Q)
    (r : option (list point)) :
  (forall x, parse s = Raise x ->
     Workout_init parse s e cal = Raise x
     /\ RunWorkout_init parse s e el cal r = Raise x
     /\ SwimWorkout_init parse s e pc cal = Raise x)
  /\ (forall ts x, parse s = Ok ts -> parse e = Raise x ->
        Workout_init parse s e cal = Raise x
        /\ RunWorkout_init parse s e el cal r = Raise x
        /\ SwimWorkout_init parse s e pc cal = Raise x)
  /\ (forall ts te, parse s = Ok ts -> parse e = Ok te ->
        Workout_init parse s e cal
        = Ok (Workout (mkBase ts te Workout_icon "Workout" cal))
        /\ RunWorkout_init parse s e el cal r
           = Ok (RunWorkout (mkBase ts te RunWorkout_icon "Running" cal) el r)
        /\ SwimWorkout_init parse s e pc cal
           = Ok (SwimWorkout (mkBase ts te SwimWorkout_icon "Swimming" cal) pc)).
Proof.
  unfold Workout_init, RunWorkout_init, SwimWorkout_init, Workout_init_base.
  repeat split; intros;
    repeat match goal with H : parse _ = _ |- _ => rewrite H; clear H end;
    reflexivity.
Qed.

End MoreOperations.


Lemma set_start_end_then_getters_witness :
  Sample.parse "1/1/2021 2:00 PM" = Ok (make 2021 1 1 14 0 0)
  /\ Sample.parse "1/1/2021 2:05 PM" = Ok (make 2021 1 1 14 5 0)
  /\ get_duration
       (snd (set_end Sample.parse "1/1/2021 2:05 PM"
               (snd (set_start Sample.parse "1/1/2021 2:00 PM" w_two))))
     = make 2021 1 1 14 5 0 - make 2021 1 1 14 0 0.
Proof.
  split; [reflexivity | split; [reflexivity|]].
  apply (set_start_end_then_getters Sample.parse w_two
           "1/1/2021 2:00 PM" "1/1/2021 2:05 PM"
           (make 2021 1 1 14 0 0) (make 2021 1 1 14 5 0));
    reflexivity.
Defined.

(** ** Aggregates over lists *)

(** The loop of [total_elevation], started at [elev], on running workouts. *)
Lemma total_elevation_from_runs (ws : list workout) :
  forall elev : Q,
    forallb is_run ws = true ->
    result_Qeq (total_elevation_from elev ws) (Ok (elev + sum_elev ws)%Q).
Proof.
  induction ws as [|w ws IH]; intros elev H.
  - simpl. ring.
  - cbn [forallb] in H. apply andb_prop in H. destruct H as [Hw Hws].
    destruct w as [b | b e r | b p]; try discriminate Hw.
    cbn [total_elevation_from get_elev bind sum_elev].
    eapply result_Qeq_trans; [apply IH, Hws|]. simpl. ring.
Qed.

Lemma total_elevation_from_other (ws : list workout) :
  forall elev : Q,
    forallb is_run ws = false ->
    total_elevation_from elev ws = Raise AttributeError.
Proof.
  induction ws as [|w ws IH]; intros elev H; [discriminate H|].
  cbn [forallb] in H.
  destruct w as [b | b e r | b p]; try reflexivity.
  cbn [is_run andb] in H. cbn [total_elevation_from get_elev bind].
  now apply IH.
Qed.

(** X11: on a list of running workouts [total_elevation] returns the sum of
    their [elev], 0 for the empty list; on a list that holds a record of
    another class it raises [AttributeError]. *)
Theorem total_elevation_outcome (ws : list workout) :
  total_elevation [] = Ok 0%Q
  /\ (forallb is_run ws = true ->
      result_Qeq (total_elevation ws) (Ok (sum_elev ws)))
  /\ (forallb is_run ws = false -> total_elevation ws = Raise AttributeError).
Proof.
  split; [reflexivity | split]; intros H.
  - eapply result_Qeq_trans; [apply total_elevation_from_runs, H|].
    simpl. ring.
  - now apply total_elevation_from_other.
Qed.

Section MoreAggregates.

Variable parse : string -> result datetime.
Variable gpsDistance : point -> point -> Q.




Lemma total_elapsed_time_is_sum (pairs : list (string * string)) :
  result_Qeq (total_elapsed_time parse pairs) (sum_elapsed parse pairs).
Proof.
  unfold total_elapsed_time.
  eapply result_Qeq_trans; [apply total_elapsed_time_from_sum|].
  destruct (sum_elapsed parse pairs) as [t|e]; [|reflexivity].
  simpl. ring.
Qed.










End MoreAggregates.

Section MoreElapsed.

Variable parse : string -> result datetime.
Variable gpsDistance : point -> point -> Q.

Lemma total_seconds_swap (a b : datetime) :
  Qeq (total_seconds (sub a b)) (- total_seconds (sub b a)).
Proof.
  unfold total_seconds, sub.
  replace (a - b) with (- (b - a)) by lia.
  rewrite inject_Z_opp. field.
Qed.

Lemma sum_elapsed_swap (pairs : list (string * string)) :
  forall t : Q,
    sum_elapsed parse pairs = Ok t ->
    exists t', sum_elapsed parse (swap_pairs pairs) = Ok t' /\ Qeq t' (- t).
Proof.
  induction pairs as [|[s e] pairs IH]; intros t H.
  - injection H as <-. exists 0%Q. split; reflexivity.
  - cbn [sum_elapsed swap_pairs map fst snd] in *.
    destruct (parse s) as [ts|x]; [|discriminate H].
    destruct (parse e) as [te|x]; [|discriminate H].
    cbn [bind] in *.
    destruct (sum_elapsed parse pairs) as [r|x]; [|discriminate H].
    destruct (IH r eq_refl) as (r' & Hr' & Hq).
    unfold swap_pairs in Hr'. rewrite Hr'. cbn [bind] in *.
    injection H as <-. eexists. split; [reflexivity|].
    rewrite Hq, (total_seconds_swap ts te). ring.
Qed.

(** X16: when [total_elapsed_time] returns [t] on a list of pairs, it
    returns [-t] on the list with the two strings of each pair exchanged:
    a pair whose end precedes its start is not rejected, it counts
    negatively. *)
Theorem total_elapsed_time_swap (pairs : list (string * string)) (t : Q) :
  total_elapsed_time parse pairs = Ok t ->
  exists t',
    total_elapsed_time parse (swap_pairs pairs) = Ok t' /\ Qeq t' (- t).
Proof.
  intros H.
  pose proof (total_elapsed_time_is_sum parse pairs) as E. rewrite H in E.
  destruct (sum_elapsed parse pairs) as [r|x] eqn:Er; [|contradiction].
  destruct (sum_elapsed_swap pairs r Er) as (r' & Hr' & Hq).
  pose proof (total_elapsed_time_is_sum parse (swap_pairs pairs)) as E'.
  rewrite Hr' in E'.
  destruct (total_elapsed_time parse (swap_pairs pairs)) as [t'|x];
    [|contradiction].
  exists t'. split; [reflexivity|].
  simpl in E, E'. rewrite E', Hq, E. reflexivity.
Qed.



End MoreElapsed.

Lemma total_elapsed_time_swap_witness :
  total_elapsed_time Sample.parse time_list = Ok (900000000000000 # 1000000000000)
  /\ exists t',
       total_elapsed_time Sample.parse (swap_pairs time_list) = Ok t'
       /\ Qeq t' (- (900000000000000 # 1000000000000)).
Proof.
  split; [reflexivity|].
  apply (total_elapsed_time_swap Sample.parse time_list). reflexivity.
Defined.


(** ** Equality as a relation *)

Section MoreEquality.

Variable gpsDistance : point -> point -> Q.



(** When [==] answers [True], by the classes of the two records. *)
Lemma workout_eq_true_conditions (a b : workout) :
  workout_eq gpsDistance a b = Ok true <->
  Workout_eq gpsDistance a b = Ok true /\ equal_elev a b.
Proof.
  destruct a as [ba | ba ea ra | ba pa], b as [bb | bb eb rb | bb pb];
    unfold workout_eq, method_eq; cbn [equal_elev];
    try tauto;
    try (unfold RunWorkout_eq; rewrite !Workout_eq_other_type by reflexivity;
         cbn [bind]; split; [discriminate | intros [H _]; discriminate H]).
  apply RunWorkout_eq_true.
Qed.



(** X20: [==] is transitive where it answers [True]. *)
Theorem workout_eq_trans (a b c : workout) :
  workout_eq gpsDistance a b = Ok true ->
  workout_eq gpsDistance b c = Ok true ->
  workout_eq gpsDistance a c = Ok true.
Proof.
  rewrite !workout_eq_true_conditions, !Workout_eq_true.
  unfold equal_derived_calories.
  intros [(T1 & S1 & E1 & K1 & x1 & y1 & Hx1 & Hy1 & Q1) L1]
         [(T2 & S2 & E2 & K2 & x2 & y2 & Hx2 & Hy2 & Q2) L2].
  rewrite Hy1 in Hx2. injection Hx2 as <-.
  split; [repeat split; try congruence|].
  - destruct a, b, c; try discriminate T1; try discriminate T2; reflexivity.
  - exists x1, y2. repeat split; try assumption.
    now rewrite Q1, Q2.
  - destruct a, b, c; try discriminate T1; try discriminate T2;
      cbn [equal_elev] in *; try exact I. now rewrite L1, L2.
Qed.



End MoreEquality.

Lemma workout_eq_trans_witness :
  workout_eq Sample.gpsDistance w_plain
    (snd (set_calories (Some (250 # 3)%Q) w_plain)) = Ok true.
Proof.
  apply (workout_eq_trans Sample.gpsDistance w_plain w_plain
           (snd (set_calories (Some (250 # 3)%Q) w_plain)));
    reflexivity.
Defined.



(** ** Rendering *)

Lemma append_assoc (a b c : string) : ((a ++ b) ++ c = a ++ (b ++ c))%string.
Proof. induction a as [|x a IH]; simpl; [reflexivity | now rewrite IH]. Qed.

Lemma py_len_app (a b : string) : py_len (a ++ b) = py_len a + py_len b.
Proof.
  induction a as [|x a IH]; [reflexivity|].
  cbn [append py_len]. rewrite IH. lia.
Qed.

Lemma py_len_repeat (s : string) (n : Z) :
  py_len (py_repeat s n) = py_len s * Z.max 0 n.
Proof.
  unfold py_repeat.
  replace (Z.max 0 n) with (Z.of_nat (Z.to_nat n)) by lia.
  induction (Z.to_nat n) as [|k IH]; [simpl; lia|].
  cbn [repeat_nat]. rewrite py_len_app, IH. lia.
Qed.

Lemma no_newline_app (a b : string) :
  no_newline (a ++ b) = no_newline a && no_newline b.
Proof.
  induction a as [|x a IH]; [reflexivity|].
  cbn [append no_newline]. rewrite IH. now rewrite andb_assoc.
Qed.

Lemma no_newline_repeat (s : string) (n : Z) :
  no_newline s = true -> no_newline (py_repeat s n) = true.
Proof.
  intros H. unfold py_repeat.
  induction (Z.to_nat n) as [|k IH]; [reflexivity|].
  cbn [repeat_nat]. now rewrite no_newline_app, H, IH.
Qed.

(** A text without a line feed, then a line feed, is one line of the
    split. *)
Lemma split_lines_line (a rest : string) :
  no_newline a = true ->
  split_lines (a ++ newline ++ rest) = a :: split_lines rest.
Proof.
  induction a as [|x a IH]; intros H; [reflexivity|].
  cbn [no_newline] in H. apply andb_prop in H. destruct H as [Hx Ha].
  cbn [append split_lines].
  destruct (Ascii.eqb x (ascii_of_nat 10)); [discriminate Hx|].
  change (a ++ String (ascii_of_nat 10) rest)%string
    with (a ++ newline ++ rest)%string.
  now rewrite (IH Ha).
Qed.

Section MoreRendering.

Variable gpsDistance : point -> point -> Q.
Variable str_timedelta : timedelta -> string.
Variable str_round1 : Q -> string.


(** X24: the text of [__str__] is nine lines, each ended by a line feed.
    The borders and the blank lines are 18 characters long.  The line of
    the kind and that of the duration are 18 long while their text is at
    most 15 long, and 3 longer than a longer text; the line of the calories
    is 18 long while the number is at most 5 long, and 13 longer than a
    longer number: a text that does not fit is not cut, it pushes the
    border out.  The line of the icon is 16 longer than the icon, so it is
    18 long only for an icon of two code points. *)
Theorem Workout_str_lines (w : workout) (s : string) :
  Workout_str gpsDistance str_timedelta str_round1 w = Ok s ->
  no_newline (icon (base_of w)) = true ->
  no_newline (kind (base_of w)) = true ->
  no_newline (str_timedelta (get_duration w)) = true ->
  (forall c, get_calories gpsDistance w = Ok c ->
             no_newline (str_round1 c) = true) ->
  exists c,
    get_calories gpsDistance w = Ok c
    /\ map py_len (split_lines s)
       = [18; 18; 16 + py_len (icon (base_of w));
          Z.max 18 (py_len (kind (base_of w)) + 3); 18;
          Z.max 18 (py_len (str_timedelta (get_duration w)) + 3);
          Z.max 18 (py_len (str_round1 c) + 13); 18; 18; 0].
Proof.
  unfold Workout_str. intros H Hi Hk Hd Hr.
  destruct (get_calories gpsDistance w) as [c|x]; [|discriminate H].
  cbn [bind] in H. cbv zeta in H. exists c. split; [reflexivity|].
  match type of H with Ok ?t = Ok _ => assert (E : s = t) by congruence end.
  clear H. subst s.
  specialize (Hr c eq_refl).
  set (ic := icon (base_of w)) in *. set (kd := kind (base_of w)) in *.
  set (du := str_timedelta (get_duration w)) in *.
  set (ca := str_round1 c) in *.
  pose (l1 := ("|" ++ py_repeat "–" width ++ "|")%string).
  pose (l2 := ("|" ++ py_repeat " " width ++ "|")%string).
  pose (l3 := ("| " ++ ic ++ py_repeat " " (width - 3) ++ "|")%string).
  pose (l4 := ("| " ++ kd ++ py_repeat " " (width - py_len kd - 1) ++ "|")%string).
  pose (l6 := ("| " ++ du ++ py_repeat " " (width - py_len du - 1) ++ "|")%string).
  pose (l7 := ("| " ++ ca ++ " Calories "
                ++ py_repeat " " (width - py_len ca - 11) ++ "|")%string).
  pose (l9 := ("|" ++ py_repeat "_" width ++ "|")%string).
  match goal with
  | |- map py_len (split_lines ?t) = _ =>
      replace t with
        (l1 ++ newline ++ l2 ++ newline ++ l3 ++ newline ++ l4 ++ newline
            ++ l2 ++ newline ++ l6 ++ newline ++ l7 ++ newline
            ++ l2 ++ newline ++ l9 ++ newline ++ "")%string
  end.
  2:{ subst l1 l2 l3 l4 l6 l7 l9.
      repeat rewrite append_assoc. reflexivity. }
  assert (N1 : no_newline l1 = true) by reflexivity.
  assert (N2 : no_newline l2 = true) by reflexivity.
  assert (N9 : no_newline l9 = true) by reflexivity.
  assert (N3 : no_newline l3 = true).
  { subst l3. rewrite !no_newline_app, Hi, no_newline_repeat; reflexivity. }
  assert (N4 : no_newline l4 = true).
  { subst l4. rewrite !no_newline_app, Hk, no_newline_repeat; reflexivity. }
  assert (N6 : no_newline l6 = true).
  { subst l6. rewrite !no_newline_app, Hd, no_newline_repeat; reflexivity. }
  assert (N7 : no_newline l7 = true).
  { subst l7. rewrite !no_newline_app, Hr, no_newline_repeat; reflexivity. }
  rewrite !split_lines_line by assumption.
  cbn [split_lines map].
  assert (L1 : py_len l1 = 18) by reflexivity.
  assert (L2 : py_len l2 = 18) by reflexivity.
  assert (L9 : py_len l9 = 18) by reflexivity.
  assert (L3 : py_len l3 = 16 + py_len ic).
  { subst l3. rewrite !py_len_app, py_len_repeat. unfold width.
    change (py_len "| ") with 2. change (py_len " ") with 1.
    change (py_len "|") with 1. lia. }
  assert (L4 : py_len l4 = Z.max 18 (py_len kd + 3)).
  { subst l4. rewrite !py_len_app, py_len_repeat. unfold width.
    change (py_len "| ") with 2. change (py_len " ") with 1.
    change (py_len "|") with 1. lia. }
  assert (L6 : py_len l6 = Z.max 18 (py_len du + 3)).
  { subst l6. rewrite !py_len_app, py_len_repeat. unfold width.
    change (py_len "| ") with 2. change (py_len " ") with 1.
    change (py_len "|") with 1. lia. }
  assert (L7 : py_len l7 = Z.max 18 (py_len ca + 13)).
  { subst l7. rewrite !py_len_app, py_len_repeat. unfold width.
    change (py_len "| ") with 2. change (py_len " ") with 1.
    change (py_len "|") with 1. change (py_len " Calories ") with 10. lia. }
  rewrite L1, L2, L3, L4, L6, L7, L9. reflexivity.
Qed.

End MoreRendering.

Lemma Workout_str_lines_witness :
  exists c,
    get_calories Sample.gpsDistance swim_plain = Ok c
    /\ map py_len
         (split_lines
            ("|––––––––––––––––|" ++ newline
             ++ "|                |" ++ newline
             ++ "| 🏊‍             |" ++ newline
             ++ "| Swimming       |" ++ newline
             ++ "|                |" ++ newline
             ++ "| 0:25:00        |" ++ newline
             ++ "| 166.7 Calories |" ++ newline
             ++ "|                |" ++ newline
             ++ "|________________|" ++ newline)%string)
       = [18; 18; 16 + py_len (icon (base_of swim_plain));
          Z.max 18 (py_len (kind (base_of swim_plain)) + 3); 18;
          Z.max 18 (py_len (Sample.str_timedelta (get_duration swim_plain)) + 3);
          Z.max 18 (py_len (Sample.str_round1 c) + 13); 18; 18; 0].
Proof.
  apply (Workout_str_lines Sample.gpsDistance Sample.str_timedelta
           Sample.str_round1 swim_plain); try reflexivity.
  intros c H. injection H as <-. reflexivity.
Defined.

(** ** Exceptions and the state of the object *)

Section MoreFailures.

Variable parse : string -> result datetime.
Variable gpsDistance : point -> point -> Q.
Variable str_timedelta : timedelta -> string.
Variable str_round1 : Q -> string.

(** X25: a public operation that raises leaves the object exactly as it
    was: no setter assigns anything before the point where it can fail. *)
Theorem run_raise_leaves_object (c : call) (w : workout) (e : exn) :
  fst (run parse gpsDistance str_timedelta str_round1 c w) = Raise e ->
  snd (run parse gpsDistance str_timedelta str_round1 c w) = w.
Proof.
  destruct c; cbn [run returning mutating fst snd]; try reflexivity.
  - discriminate.
  - unfold set_start. destruct (parse start_s); [discriminate | reflexivity].
  - unfold set_end. destruct (parse end_s); [discriminate | reflexivity].
  - destruct w; cbn [set_elev fst snd bind]; try reflexivity. discriminate.
Qed.


End MoreFailures.

Lemma run_raise_leaves_object_witness :
  fst (run Sample.parse Sample.gpsDistance Sample.str_timedelta
         Sample.str_round1 (Call_set_end "tomorrow") run_with_gps)
  = Raise ParserError
  /\ snd (run Sample.parse Sample.gpsDistance Sample.str_timedelta
            Sample.str_round1 (Call_set_end "tomorrow") run_with_gps)
     = run_with_gps.
Proof.
  split; [reflexivity|].
  apply (run_raise_leaves_object Sample.parse Sample.gpsDistance
           Sample.str_timedelta Sample.str_round1 (Call_set_end "tomorrow")
           run_with_gps ParserError).
  reflexivity.
Defined.


(** ** The properties above on the records of the examples *)


Lemma set_calories_then_get_calories_witness :
  route_of run_with_gps = Some [boston; newton]
  /\ get_calories Sample.gpsDistance (snd (set_calories (Some 300%Q) run_with_gps))
     = get_calories Sample.gpsDistance run_with_gps.
Proof.
  split; [reflexivity|].
  apply (proj2 (set_calories_then_get_calories Sample.gpsDistance run_with_gps)
           (Some 300%Q) [boston; newton]).
  reflexivity.
Defined.

Lemma set_elev_then_get_elev_witness :
  is_run swim_plain = false
  /\ set_elev 10%Q swim_plain = (Raise AttributeError, swim_plain)
  /\ get_elev swim_plain = Raise AttributeError.
Proof.
  split; [reflexivity|].
  apply (proj2 (set_elev_then_get_elev Sample.gpsDistance swim_plain 10%Q)).
  reflexivity.
Defined.

Lemma constructors_outcome_witness :
  Sample.parse "soon" = Raise ParserError
  /\ Workout_init Sample.parse "soon" "later" None = Raise ParserError
  /\ RunWorkout_init Sample.parse "soon" "later" 0%Q None None = Raise ParserError
  /\ SwimWorkout_init Sample.parse "soon" "later" 2%Q None = Raise ParserError.
Proof.
  split; [reflexivity|].
  apply (proj1 (constructors_outcome Sample.parse "soon"%string "later"%string
                  None 0%Q 2%Q None) ParserError).
  reflexivity.
Defined.

Lemma total_elevation_outcome_witness :
  forallb is_run [run_with_gps; swim_plain] = false
  /\ total_elevation [run_with_gps; swim_plain] = Raise AttributeError.
Proof.
  split; [reflexivity|].
  apply (proj2 (proj2 (total_elevation_outcome [run_with_gps; swim_plain]))).
  reflexivity.
Defined.



